(** * annotate-lab: the annotation database handler

    A shallow embedding of [server/db/db_handler.py] and the properties of
    its upsert-and-reconcile logic.

    The Python module keeps four pandas frames (images, circle, box and
    polygon regions), mutates them from JSON payloads and writes them to four
    CSV files.  The embedding follows the source function by function:

    - JSON and Python values are the inductive type [value];
    - a Python exception is the [Raise] result of a computation;
    - a method of the class is a computation in a state-and-exception monad
      [M S A := S -> S * result A]: the state survives an exception, which
      is how an in-place mutation stays visible after a failure;
    - a frame is its list of column names and its rows, each row a finite
      map from column name to cell; a cell that a row does not bind is NaN;
    - the category handler ([add_image_folder], [remove_image_folder]) is an
      external collaborator: a call to it is an [event] appended to a log. *)

From Stdlib Require Import ZArith String Ascii List Bool Lia DecimalString.
From stdpp Require Import gmap strings list fin_maps.

#[local] Set Warnings "-register-all".
#[local] Open Scope Z_scope.
#[local] Open Scope string_scope.
#[local] Open Scope list_scope.

(** ** Python values *)

(** The values a payload, a record or a cell can hold.  [VNaN] is the missing
    cell of a frame, [VUuid n] the [n]-th identifier made by [uuid.uuid1()].
    Numbers are integers: the handler only stores, compares and prints them. *)
Inductive value :=
| VNone
| VNaN
| VNum (z : Z)
| VStr (s : string)
| VUuid (n : nat)
| VList (l : list value)
| VDict (d : list (string * value)).

(** A Python [dict] with string keys, in insertion order. *)
Abbreviation dict := (list (string * value)).

Inductive exn :=
| KeyError (k : string)
| IndexError
| TypeError
| AttributeError
| ValueError.

Inductive result (A : Type) :=
| Ok (a : A)
| Raise (e : exn).
Arguments Ok {A} a.
Arguments Raise {A} e.

Definition rbind {A B} (r : result A) (k : A -> result B) : result B :=
  match r with
  | Ok a => k a
  | Raise e => Raise e
  end.

Declare Scope py_scope.
Delimit Scope py_scope with py.
#[local] Open Scope py_scope.

Notation "'let?' x := r 'in' k" := (rbind r (fun x => k))
  (at level 10, x pattern, r at level 100, k at level 200) : py_scope.

Fixpoint rmapM {A B} (f : A -> result B) (l : list A) : result (list B) :=
  match l with
  | [] => Ok []
  | a :: l' => let? b := f a in let? bs := rmapM f l' in Ok (b :: bs)
  end.

(** *** Dictionaries *)

Fixpoint dict_get (d : dict) (k : string) : option value :=
  match d with
  | [] => None
  | (k', v) :: d' => if String.eqb k' k then Some v else dict_get d' k
  end.

(** [k in d] *)
Definition dict_in (k : string) (d : dict) : bool :=
  match dict_get d k with Some _ => true | None => false end.

(** [d[k] = v]: an existing key keeps its place, a new key goes last. *)
Fixpoint dict_set (d : dict) (k : string) (v : value) : dict :=
  match d with
  | [] => [(k, v)]
  | (k', v') :: d' =>
      if String.eqb k' k then (k, v) :: d' else (k', v') :: dict_set d' k v
  end.

(** [d[k]] on a dictionary *)
Definition dict_item (d : dict) (k : string) : result value :=
  match dict_get d k with
  | Some v => Ok v
  | None => Raise (KeyError k)
  end.

(** [v[k]] with a string key [k]: only a dictionary can be subscripted so. *)
Definition getitem (v : value) (k : string) : result value :=
  match v with
  | VDict d => dict_item d k
  | _ => Raise TypeError
  end.

(** *** Strings *)

Definition chars (s : string) : list value :=
  map (fun a => VStr (String a EmptyString)) (list_ascii_of_string s).

(** [s.split(c)] for a one-character separator *)
Fixpoint split_on (c : ascii) (s : string) : list string :=
  match s with
  | EmptyString => [EmptyString]
  | String a s' =>
      if Ascii.eqb a c then EmptyString :: split_on c s'
      else match split_on c s' with
           | [] => [String a EmptyString]
           | w :: ws => String a w :: ws
           end
  end.

Definition semicolon : ascii := ";"%char.

(** [str(z)] for an integer *)
Definition str_of_Z (z : Z) : string := NilZero.string_of_int (Z.to_int z).

(** [v[0]] *)
Definition getitem0 (v : value) : result value :=
  match v with
  | VList (x :: _) => Ok x
  | VList [] => Raise IndexError
  | VStr (String a _) => Ok (VStr (String a EmptyString))
  | VStr EmptyString => Raise IndexError
  | VDict _ => Raise (KeyError "0")
  | _ => Raise TypeError
  end.

(** [for x in v]: the items of a list, the characters of a string, the keys
    of a dictionary. *)
Definition py_iter (v : value) : result (list value) :=
  match v with
  | VList l => Ok l
  | VStr s => Ok (chars s)
  | VDict d => Ok (map (fun kv => VStr (fst kv)) d)
  | _ => Raise TypeError
  end.

Definition as_str (v : value) : result string :=
  match v with
  | VStr s => Ok s
  | _ => Raise TypeError
  end.

(** [sep.join(v)]: every item of the iterable must be a string. *)
Definition str_join (sep : string) (v : value) : result string :=
  let? items := py_iter v in
  let? ss := rmapM as_str items in
  Ok (String.concat sep ss).

(** [v.split(';')]: only a string has the method. *)
Definition py_split (v : value) : result value :=
  match v with
  | VStr s => Ok (VList (map VStr (split_on semicolon s)))
  | _ => Raise AttributeError
  end.

(** *** Equality *)

(** [a == b] *)
Fixpoint py_eq (a b : value) {struct a} : bool :=
  match a, b with
  | VNone, VNone => true
  | VNum x, VNum y => Z.eqb x y
  | VStr x, VStr y => String.eqb x y
  | VUuid x, VUuid y => Nat.eqb x y
  | VList xs, VList ys =>
      (fix go (xs ys : list value) : bool :=
         match xs, ys with
         | [], [] => true
         | x :: xs', y :: ys' => py_eq x y && go xs' ys'
         | _, _ => false
         end) xs ys
  | VDict d1, VDict d2 =>
      Nat.eqb (length d1) (length d2) &&
      (fix go (d : dict) : bool :=
         match d with
         | [] => true
         | (k, v) :: d' =>
             match dict_get d2 k with
             | Some w => py_eq v w
             | None => false
             end && go d'
         end) d1
  | _, _ => false
  end.

(** Membership in a list: [x in l], by [==]. *)
Definition py_mem (x : value) (l : list value) : bool := existsb (py_eq x) l.

(** [c in v] for a string [c] *)
Definition py_contains (c : string) (v : value) : result bool :=
  match v with
  | VStr s => Ok (match index 0%nat c s with Some _ => true | None => false end)
  | VList l => Ok (py_mem (VStr c) l)
  | VDict d => Ok (dict_in c d)
  | _ => Raise TypeError
  end.

(** *** Sets *)

(** A Python set is modelled by the list of its distinct elements.  Python
    fixes no iteration order for a set; [set_of] keeps first occurrences, and
    no theorem below depends on that choice beyond what it states. *)

Definition hashable (v : value) : bool :=
  match v with
  | VList _ | VDict _ => false
  | _ => true
  end.

(** Equality of two elements of a set ([NaN] is one object). *)
Definition set_eq (a b : value) : bool :=
  match a, b with
  | VNaN, VNaN => true
  | _, _ => py_eq a b
  end.

Definition set_mem (x : value) (s : list value) : bool := existsb (set_eq x) s.

Fixpoint set_of (l : list value) : list value :=
  match l with
  | [] => []
  | x :: l' => x :: List.filter (fun y => negb (set_eq x y)) (set_of l')
  end.

(** [set(v)]: the elements of an iterable, each of them hashable. *)
Definition py_set (v : value) : result (list value) :=
  let? items := py_iter v in
  if forallb hashable items then Ok (set_of items) else Raise TypeError.

(** [a - b] *)
Definition set_diff (a b : list value) : list value :=
  List.filter (fun x => negb (set_mem x b)) a.

(** [a.union(b)] *)
Definition set_union (a b : list value) : list value := set_of (a ++ b).

(** [get_lists_absolute(new_set, old_set)] *)
Definition get_lists_absolute (new_set old_set : list value)
  : list value * list value :=
  (set_diff new_set old_set, set_diff old_set new_set).

(** *** Printing *)

(** [str(v)].  A string prints as itself and an integer in decimal; inside a
    list or a dictionary Python prints the [repr] of the items, of which the
    quoting of strings is kept and the escaping of quotes is not. *)
Fixpoint py_repr (v : value) : string :=
  match v with
  | VNone => "None"
  | VNaN => "nan"
  | VNum z => str_of_Z z
  | VStr s => "'" +:+ s +:+ "'"
  | VUuid n => "UUID('" +:+ str_of_Z (Z.of_nat n) +:+ "')"
  | VList l => "[" +:+ String.concat ", " (map py_repr l) +:+ "]"
  | VDict d =>
      "{" +:+ String.concat ", "
                (map (fun kv => "'" +:+ fst kv +:+ "': " +:+ py_repr (snd kv)) d)
          +:+ "}"
  end.

Definition py_str (v : value) : string :=
  match v with
  | VStr s => s
  | VUuid n => str_of_Z (Z.of_nat n)
  | _ => py_repr v
  end.

(** ** The state-and-exception monad *)

(** A computation reads and writes a state of type [S] and either returns or
    raises.  The state is returned in both cases. *)
Definition M (S A : Type) : Type := S -> S * result A.

Definition ret {S A} (a : A) : M S A := fun s => (s, Ok a).

Definition bind {S A B} (m : M S A) (k : A -> M S B) : M S B :=
  fun s =>
    match m s with
    | (s', Ok a) => k a s'
    | (s', Raise e) => (s', Raise e)
    end.

Definition lift {S A} (r : result A) : M S A := fun s => (s, r).
Definition get {S} : M S S := fun s => (s, Ok s).
Definition modify {S} (f : S -> S) : M S unit := fun s => (f s, Ok tt).

Notation "'do' x <- m ; k" := (bind m (fun x => k))
  (at level 10, x pattern, m at level 100, k at level 200) : py_scope.
Notation "m ;; k" := (bind m (fun _ => k))
  (at level 100, k at level 200, right associativity) : py_scope.

(** [for x in l: body x] *)
Fixpoint for_each {S A} (l : list A) (body : A -> M S unit) : M S unit :=
  match l with
  | [] => ret tt
  | x :: l' => body x ;; for_each l' body
  end.

(** ** Frames *)

(** A pandas [DataFrame]: the column labels and the rows.  A row binds a
    column to its cell; an unbound column of the frame reads as NaN in that
    row.  Cells hold Python objects as they were stored (dtype conversions
    are not modelled).

    pandas addresses a row by its label.  Every frame of this module has
    pairwise distinct labels: it is read by [read_csv] or built by
    [concat(..., ignore_index=True)], and then only thinned by a boolean
    mask.  A label therefore denotes one row, and the embedding names that
    row by its position. *)
Record DataFrame := {
  columns : list string;
  rows : list (gmap string value)
}.

Definition has_column (df : DataFrame) (c : string) : bool :=
  existsb (String.eqb c) (columns df).

Definition cell_of (r : gmap string value) (c : string) : value :=
  default VNaN (r !! c).

(** [df[c]] *)
Definition series (df : DataFrame) (c : string) : result (list value) :=
  if has_column df c then Ok (map (fun r => cell_of r c) (rows df))
  else Raise (KeyError c).

Definition isnull (v : value) : bool :=
  match v with
  | VNone | VNaN => true
  | _ => false
  end.

(** One comparison of [series == uid]: a missing value equals nothing. *)
Definition cmp_elt (c u : value) : bool :=
  negb (isnull c) && negb (isnull u) && py_eq c u.

Fixpoint cmp_zip (cells us : list value) : list bool :=
  match cells, us with
  | c :: cells', u :: us' => cmp_elt c u :: cmp_zip cells' us'
  | _, _ => []
  end.

(** [series == uid]: elementwise; against a list, item by item, and the
    lengths must agree. *)
Definition series_eq (cells : list value) (uid : value) : result (list bool) :=
  match uid with
  | VList us =>
      if Nat.eqb (length us) (length cells) then Ok (cmp_zip cells us)
      else Raise ValueError
  | _ => Ok (map (fun c => cmp_elt c uid) cells)
  end.

(** [l[mask]] *)
Fixpoint select {A} (l : list A) (mask : list bool) : list A :=
  match l, mask with
  | x :: l', b :: mask' => if b then x :: select l' mask' else select l' mask'
  | _, _ => []
  end.

(** [df[mask]]: a new frame with the selected rows *)
Definition df_filter (df : DataFrame) (mask : list bool) : DataFrame :=
  {| columns := columns df; rows := select (rows df) mask |}.

Fixpoint first_true (mask : list bool) : option nat :=
  match mask with
  | [] => None
  | b :: mask' => if b then Some O else option_map S (first_true mask')
  end.

(** [df.loc[i, c]] *)
Definition loc (df : DataFrame) (i : nat) (c : string) : result value :=
  if has_column df c then
    match rows df !! i with
    | Some r => Ok (cell_of r c)
    | None => Raise (KeyError "index")
    end
  else Raise (KeyError c).

(** [df.at[i, c] = v], in place.  A column the frame does not have yet is
    added to it (pandas then goes through [df.loc], whose treatment of a
    list value is not followed here: the statements about writes below are
    for records whose fields are columns of the frame, as the records and
    the frames built by this module are). *)
Definition at_set (df : DataFrame) (i : nat) (c : string) (v : value)
  : DataFrame :=
  {| columns := if has_column df c then columns df else columns df ++ [c];
     rows := alter (fun r => <[c := v]> r) i (rows df) |}.

(** [pd.DataFrame.from_dict([data])]: one row, whose cells are the values of
    [data] as they are (a list stays a list). *)
Definition DataFrame_from_dict (data : dict) : DataFrame :=
  {| columns := map fst data; rows := [list_to_map data] |}.

(** [pd.concat([a, b], ignore_index=True)] *)
Definition pd_concat (a b : DataFrame) : DataFrame :=
  {| columns := columns a ++ List.filter (fun c => negb (has_column a c)) (columns b);
     rows := rows a ++ rows b |}.

(** [series.isin(s)] *)
Definition isin (cells : list value) (s : list value) : list bool :=
  map (fun c => set_mem c s) cells.

(** ** The reconciliation engine *)

(** What the class leaves behind outside its frames: the calls to the
    category handler, and the two diagnostics it prints for a region of an
    unknown type and for an exception that a handler catches.  The progress
    prints of [saveRegionInDB] are left out. *)
Inductive event :=
| add_image_folder (cls name src : value)
| remove_image_folder (cls name : value)
| print_undefined_type (ty : value)
| print_error (e : exn).

(** [saveRegionInDB] works on the frame object it is passed, which it may
    mutate in place, and on the category handler. *)
Record Db := {
  database : DataFrame;
  calls : list event
}.

Definition set_database (f : DataFrame -> DataFrame) (s : Db) : Db :=
  {| database := f (database s); calls := calls s |}.

(** Modelled from the spec: [add_image_folder] and [remove_image_folder] of
    [db.category_handler], which is not part of the sources.  The spec gives
    them as [register(className, imageName, imageSrc)] and
    [unregister(className, imageName)], which never fail; a call is recorded
    in the order it is made. *)
Definition emit (e : event) : M Db unit :=
  modify (fun s => {| database := database s; calls := calls s ++ [e] |}).

(** [findInfoInDb]: the first row whose [uid_columns] cell equals [uid]. *)
Definition findInfoInDb (database : DataFrame) (uid_columns : string)
    (uid : value) : result (option nat) :=
  let? cells := series database uid_columns in
  let? mask := series_eq cells uid in
  Ok (first_true mask).

(** Lines 81-99 of [saveRegionInDB]: [old_cat_set] and [new_cat_set]. *)
Definition category_sets (database : DataFrame) (index : nat) (data : dict)
  : result (list value * list value) :=
  let? cls := dict_item data "class" in
  let selected_classes_str :=
    match dict_get data "selected-classes" with
    | Some v => v
    | None => cls
    end in
  let selected_classes_str :=
    match selected_classes_str with
    | VList [VStr s] => VStr s
    | v => v
    end in
  if dict_in "selected-classes" data then
    let? has_delimiter := py_contains ";" selected_classes_str in
    if has_delimiter then
      let? stored := loc database index "selected-classes" in
      let? parts := py_split stored in
      let? old_cat_set := py_set parts in
      let? parts := py_split selected_classes_str in
      let? new_cat_set := py_set parts in
      Ok (old_cat_set, new_cat_set)
    else
      let? stored := loc database index "selected-classes" in
      let? old_cat_set := py_set stored in
      let? new_cat_set := py_set selected_classes_str in
      Ok (old_cat_set, new_cat_set)
  else
    let? stored := loc database index "class" in
    let? old_cat_set := py_set stored in
    let? new_cat_set := py_set selected_classes_str in
    Ok (old_cat_set, new_cat_set).

(** [value[0] if status == 0 else value] *)
Definition unwrap (status : Z) (v : value) : result value :=
  if Z.eqb status 0 then getitem0 v else Ok v.

(** [data[k][0]] *)
Definition first_of (data : dict) (k : string) : result value :=
  let? v := dict_item data k in getitem0 v.

(** [if isinstance(v, list) and len(v) == 1 and isinstance(v[0], str):
    v = v[0].split(';')] *)
Definition split_single (v : value) : value :=
  match v with
  | VList [VStr s] => VList (map VStr (split_on semicolon s))
  | v => v
  end.

Definition saveRegionInDB (idColumn : string) (uid : value) (data : dict)
    (status : Z) : M Db DataFrame :=
  do db <- get;
  do index <- lift (findInfoInDb (database db) idColumn uid);
  match index with
  | Some index =>
      do sets <- lift (category_sets (database db) index data);
      let '(old_cat_set, new_cat_set) := sets in
      for_each data (fun kv =>
        do _value <- lift (unwrap status (snd kv));
        modify (set_database (fun d => at_set d index (fst kv) _value))) ;;
      let '(add_, remove_) := get_lists_absolute new_cat_set old_cat_set in
      (if dict_in "image-name" data then
         for_each add_ (fun new_ =>
           do name <- lift (first_of data "image-name");
           do src <- lift (first_of data "image-src");
           emit (add_image_folder new_ name src)) ;;
         for_each remove_ (fun old_ =>
           do name <- lift (first_of data "image-name");
           emit (remove_image_folder old_ name))
       else ret tt) ;;
      do db <- get;
      ret (database db)
  | None =>
      let df := DataFrame_from_dict data in
      let database := pd_concat (database db) df in
      (if dict_in "selected-classes" data then
         do selected_classes <- lift (dict_item data "selected-classes");
         let selected_classes := split_single selected_classes in
         do classes <- lift (py_iter selected_classes);
         for_each classes (fun class_ =>
           if py_eq class_ (VStr "") then ret tt
           else
             do name <- lift (first_of data "image-name");
             do src <- lift (first_of data "image-src");
             emit (add_image_folder class_ name src))
       else ret tt) ;;
      ret database
  end.

(** ** The class [Module] *)

(** The four CSV files, each as the frame last written to it. *)
Record Files := {
  imageInfoName : DataFrame;
  circleRegionInfo : DataFrame;
  boxRegionInfo : DataFrame;
  polygonInfo : DataFrame
}.

(** An instance of the class [Module] of the source ([Module] is a keyword
    here), with the files it writes and the log of its collaborator calls
    and diagnostics. *)
Record DbModule := {
  imagesInfo : DataFrame;
  imageCircleRegions : DataFrame;
  imageBoxRegions : DataFrame;
  imagePolygonRegions : DataFrame;
  files : Files;
  log : list event
}.

(** The attribute of [self] that a call of [saveRegionInDB] is given. *)
Inductive table := Images | Circles | Boxes | Polygons.

#[global] Instance table_eq_dec : EqDecision table.
Proof. solve_decision. Defined.

Definition frame_of (t : table) (self : DbModule) : DataFrame :=
  match t with
  | Images => imagesInfo self
  | Circles => imageCircleRegions self
  | Boxes => imageBoxRegions self
  | Polygons => imagePolygonRegions self
  end.

Definition set_frame (t : table) (d : DataFrame) (self : DbModule) : DbModule :=
  {| imagesInfo := match t with Images => d | _ => imagesInfo self end;
     imageCircleRegions :=
       match t with Circles => d | _ => imageCircleRegions self end;
     imageBoxRegions := match t with Boxes => d | _ => imageBoxRegions self end;
     imagePolygonRegions :=
       match t with Polygons => d | _ => imagePolygonRegions self end;
     files := files self;
     log := log self |}.

Definition set_log (l : list event) (self : DbModule) : DbModule :=
  {| imagesInfo := imagesInfo self;
     imageCircleRegions := imageCircleRegions self;
     imageBoxRegions := imageBoxRegions self;
     imagePolygonRegions := imagePolygonRegions self;
     files := files self;
     log := l |}.

Definition set_files (f : Files) (self : DbModule) : DbModule :=
  {| imagesInfo := imagesInfo self;
     imageCircleRegions := imageCircleRegions self;
     imageBoxRegions := imageBoxRegions self;
     imagePolygonRegions := imagePolygonRegions self;
     files := f;
     log := log self |}.

(** Run a computation on the frame object that [self] holds in attribute
    [t]: what it does to the object in place is seen through [self]. *)
Definition on_frame {A} (t : table) (m : M Db A) : M DbModule A :=
  fun self =>
    match m {| database := frame_of t self; calls := log self |} with
    | (db, r) => (set_log (calls db) (set_frame t (database db) self), r)
    end.

(** [self.t = self.saveRegionInDB(self.t, idColumn, uid, data, status)] *)
Definition save_into (t : table) (idColumn : string) (uid : value)
    (data : dict) (status : Z) : M DbModule unit :=
  do d <- on_frame t (saveRegionInDB idColumn uid data status);
  modify (set_frame t d).


Definition getImageData (data : value) : result dict :=
  let? name := getitem data "name" in
  let? src := getitem data "src" in
  let? comment := getitem data "comment" in
  let? cls := getitem data "cls" in
  let? classes := str_join ";" cls in
  let? has_size := py_contains "pixelSize" data in
  let? pixelSize := if has_size then getitem data "pixelSize" else Ok (VDict []) in
  let? height :=
    if negb (py_eq pixelSize (VDict [])) then
      let? h := getitem pixelSize "h" in Ok (VList [h])
    else Ok (VList []) in
  let? width :=
    if negb (py_eq pixelSize (VDict [])) then
      let? w := getitem pixelSize "w" in Ok (VList [w])
    else Ok (VList []) in
  Ok [("image-name", VList [name]);
      ("image-src", VList [src]);
      ("comment", VList [comment]);
      ("selected-classes", VList [VStr classes]);
      ("image-original-height", height);
      ("image-original-width", width);
      ("processed", VList [VNum 1])].

Definition region_save (t : table) (regionData : dict) : M DbModule unit :=
  do uid <- lift (dict_item regionData "region-id");
  save_into t "region-id" uid regionData 1.

Definition circleRegion (regionData : dict) (data : value) : M DbModule unit :=
  do coords <- lift (getitem data "coords");
  do rx <- lift (getitem coords "rx");
  let regionData := dict_set regionData "rx" (VList [rx]) in
  do ry <- lift (getitem coords "ry");
  let regionData := dict_set regionData "ry" (VList [ry]) in
  do rw <- lift (getitem coords "rw");
  let regionData := dict_set regionData "rw" (VList [rw]) in
  do rh <- lift (getitem coords "rh");
  let regionData := dict_set regionData "rh" (VList [rh]) in
  region_save Circles regionData.

Definition boxRegion (regionData : dict) (data : value) : M DbModule unit :=
  do coords <- lift (getitem data "coords");
  do x <- lift (getitem coords "x");
  let regionData := dict_set regionData "x" (VList [x]) in
  do y <- lift (getitem coords "y");
  let regionData := dict_set regionData "y" (VList [y]) in
  do w <- lift (getitem coords "w");
  let regionData := dict_set regionData "w" (VList [w]) in
  do h <- lift (getitem coords "h");
  let regionData := dict_set regionData "h" (VList [h]) in
  region_save Boxes regionData.

(** ['-'.join(str(coord) for coord in point)] *)
Definition point_str (point : value) : result string :=
  let? coords := py_iter point in
  Ok (String.concat "-" (map py_str coords)).

Definition polygonRegion (regionData : dict) (data : value) : M DbModule unit :=
  do points <- lift (getitem data "points");
  do points <- lift (py_iter points);
  do strs <- lift (rmapM point_str points);
  let regionData := dict_set regionData "points" (VStr (String.concat ";" strs)) in
  region_save Polygons regionData.

Definition otherRegion (regionData : dict) (data : value) : M DbModule unit :=
  do ty <- lift (getitem data "type");
  modify (fun self => set_log (log self ++ [print_undefined_type ty]) self).

Definition regionType (type : value)
  : dict -> value -> M DbModule unit :=
  if py_eq type (VStr "circle") then circleRegion
  else if py_eq type (VStr "box") then boxRegion
  else if py_eq type (VStr "polygon") then polygonRegion
  else otherRegion.

Definition saveRegionInfo (type imageSrc data : value) : M DbModule unit :=
  do id <- lift (getitem data "id");
  do cls <- lift (getitem data "cls");
  do has_comment <- lift (py_contains "comment" data);
  do comment <- lift (if has_comment then getitem data "comment"
                      else Ok (VStr ""));
  do tags <- lift (match data with
                   | VDict d => Ok (default VNone (dict_get d "tags"))
                   | _ => Raise AttributeError
                   end);
  let tags := if py_eq tags VNone then VList [] else tags in
  do tags <- lift (str_join ";" tags);
  let regionData :=
    [("region-id", id); ("image-src", imageSrc); ("class", cls);
     ("comment", comment); ("tags", VStr tags)] in
  regionType type regionData data.

(** [df[df[c] == v]] *)
Definition where_eq (df : DataFrame) (c : string) (v : value)
  : result DataFrame :=
  let? cells := series df c in
  let? mask := series_eq cells v in
  Ok (df_filter df mask).

(** [set(df[c])] *)
Definition column_set (df : DataFrame) (c : string) : result (list value) :=
  let? cells := series df c in
  py_set (VList cells).

(** [df[~df[c].isin(s)]] *)
Definition drop_isin (df : DataFrame) (c : string) (s : list value)
  : result DataFrame :=
  let? cells := series df c in
  Ok (df_filter df (map negb (isin cells s))).

(** [{region['id'] for region in data['regions']}] *)
Definition newRegionIds (data : value) : result (list value) :=
  let? regions := getitem data "regions" in
  let? regions := py_iter regions in
  let? ids := rmapM (fun region => getitem region "id") regions in
  py_set (VList ids).

(** [existingRegionIds] of [handleNewData], from the rows that the three
    region frames hold for the image. *)
Definition existingRegionIds
    (existingCircleRegions existingBoxRegions existingPolygonRegions : DataFrame)
  : result (list value) :=
  let? c := column_set existingCircleRegions "region-id" in
  let? b := column_set existingBoxRegions "region-id" in
  let? p := column_set existingPolygonRegions "region-id" in
  Ok (set_union (set_union c b) p).

(** [regionsToRemove] of [handleNewData] *)
Definition regionsToRemove (self : DbModule) (data : value)
  : result (list value) :=
  let? src := getitem data "src" in
  let? existingCircleRegions := where_eq (imageCircleRegions self) "image-src" src in
  let? existingBoxRegions := where_eq (imageBoxRegions self) "image-src" src in
  let? existingPolygonRegions := where_eq (imagePolygonRegions self) "image-src" src in
  let? new_ids := newRegionIds data in
  let? existing_ids :=
    existingRegionIds existingCircleRegions existingBoxRegions
      existingPolygonRegions in
  Ok (set_diff existing_ids new_ids).

(** [self.t = self.t[~self.t['region-id'].isin(regionsToRemove)]] *)
Definition remove_regions (t : table) (stale : list value) : M DbModule unit :=
  do self <- get;
  do kept <- lift (drop_isin (frame_of t self) "region-id" stale);
  modify (set_frame t kept).

Definition saveDataAutomatically : M DbModule unit :=
  modify (fun self =>
    set_files {| imageInfoName := imagesInfo self;
                 circleRegionInfo := imageCircleRegions self;
                 boxRegionInfo := imageBoxRegions self;
                 polygonInfo := imagePolygonRegions self |} self).

(** [try: body; return True / except Exception as e: print('Error:', e);
    return False] *)
Definition try_except (body : M DbModule unit) (self : DbModule)
  : DbModule * bool :=
  match body self with
  | (self', Ok _) => (self', true)
  | (self', Raise e) => (set_log (log self' ++ [print_error e]) self', false)
  end.

(** The first two statements of both handlers. *)
Definition save_image_data (data : value) : M DbModule unit :=
  do imageData <- lift (getImageData data);
  do src <- lift (first_of imageData "image-src");
  save_into Images "image-src" src imageData 0.

(** The [try] block of [handleNewData]. *)
Definition handleNewData_try (data : value) : M DbModule unit :=
  save_image_data data ;;
  do self <- get;
  do stale <- lift (regionsToRemove self data);
  remove_regions Circles stale ;;
  remove_regions Boxes stale ;;
  remove_regions Polygons stale ;;
  do regions <- lift (getitem data "regions");
  do regions <- lift (py_iter regions);
  for_each regions (fun region =>
    do type <- lift (getitem region "type");
    do src <- lift (getitem data "src");
    saveRegionInfo type src region) ;;
  saveDataAutomatically.

Definition handleNewData (data : value) : DbModule -> DbModule * bool :=
  try_except (handleNewData_try data).

(** The [try] block of [handleActiveImageData]; its last statement is
    [self.imagesInfo.to_csv(imageInfoName, index=False)]. *)
Definition handleActiveImageData_try (data : value) : M DbModule unit :=
  save_image_data data ;;
  modify (fun self =>
    set_files {| imageInfoName := imagesInfo self;
                 circleRegionInfo := circleRegionInfo (files self);
                 boxRegionInfo := boxRegionInfo (files self);
                 polygonInfo := polygonInfo (files self) |} self).

Definition handleActiveImageData (data : value)
  : DbModule -> DbModule * bool :=
  try_except (handleActiveImageData_try data).

(** The frames of a new instance over empty files (the constructor of the
    class, [__init__]). *)
Definition empty_frame (cols : list string) : DataFrame :=
  {| columns := cols; rows := [] |}.

Definition images_columns : list string :=
  ["image-name"; "selected-classes"; "comment"; "image-original-height";
   "image-original-width"; "image-src"; "processed"].
Definition circle_columns : list string :=
  ["region-id"; "image-src"; "class"; "comment"; "tags"; "rx"; "ry"; "rw"; "rh"].
Definition box_columns : list string :=
  ["region-id"; "image-src"; "class"; "comment"; "tags"; "x"; "y"; "w"; "h"].
Definition polygon_columns : list string :=
  ["region-id"; "image-src"; "class"; "comment"; "tags"; "points"].

Definition init : DbModule :=
  {| imagesInfo := empty_frame images_columns;
     imageCircleRegions := empty_frame circle_columns;
     imageBoxRegions := empty_frame box_columns;
     imagePolygonRegions := empty_frame polygon_columns;
     files := {| imageInfoName := empty_frame images_columns;
                 circleRegionInfo := empty_frame circle_columns;
                 boxRegionInfo := empty_frame box_columns;
                 polygonInfo := empty_frame polygon_columns |};
     log := [] |}.

(** ** The other methods of the class *)

(** [findInfoInPolygonDb], [findInfoInBoxDb] and [findInfoInCircleDb]: the
    rows whose [uid_columns] cell equals [uid], as a frame, or [None] when
    there is none.  The three methods have the same body. *)
Definition findInfoInPolygonDb (database : DataFrame) (uid_columns : string)
    (uid : value) : result (option DataFrame) :=
  let? regions := where_eq database uid_columns uid in
  Ok (if (0 <? length (rows regions))%nat then Some regions else None).

Definition findInfoInBoxDb (database : DataFrame) (uid_columns : string)
    (uid : value) : result (option DataFrame) :=
  let? regions := where_eq database uid_columns uid in
  Ok (if (0 <? length (rows regions))%nat then Some regions else None).

Definition findInfoInCircleDb (database : DataFrame) (uid_columns : string)
    (uid : value) : result (option DataFrame) :=
  let? regions := where_eq database uid_columns uid in
  Ok (if (0 <? length (rows regions))%nat then Some regions else None).

(** [df.drop(df.index, inplace=True)]: every row goes, the columns stay. *)
Definition drop_rows (t : table) : M DbModule unit :=
  modify (fun self =>
    set_frame t {| columns := columns (frame_of t self); rows := [] |} self).

(** [self.t.to_csv(file of t, index=False)] *)
Definition to_csv (t : table) : M DbModule unit :=
  modify (fun self =>
    let f := files self in
    let d := frame_of t self in
    set_files
      {| imageInfoName := match t with Images => d | _ => imageInfoName f end;
         circleRegionInfo :=
           match t with Circles => d | _ => circleRegionInfo f end;
         boxRegionInfo := match t with Boxes => d | _ => boxRegionInfo f end;
         polygonInfo := match t with Polygons => d | _ => polygonInfo f end |}
      self).

(** The [try] block of [clear_db], without its last [print]. *)
Definition clear_db_try : M DbModule unit :=
  drop_rows Images ;;
  drop_rows Circles ;;
  drop_rows Boxes ;;
  drop_rows Polygons ;;
  to_csv Images ;;
  to_csv Circles ;;
  to_csv Boxes ;;
  to_csv Polygons.

(** [clear_db] returns nothing; its [except] branch only prints, so the
    instance is left as the [try] block left it. *)
Definition clear_db (self : DbModule) : DbModule := fst (clear_db_try self).

(** A pandas [Series] of counts, as [get_class_distribution] builds and
    returns it: the keys, pairwise different, each with its count.  pandas
    holds the counts as floats after [add]; they are whole numbers and are
    kept as naturals.  The order of the keys is not the one of pandas (which
    sorts by count, and again when it aligns two series): the result is
    read by key. *)
Definition counts := list (value * nat).

(** [s.get(k, 0)] on a series of counts *)
Fixpoint count_of (s : counts) (k : value) : nat :=
  match s with
  | [] => 0%nat
  | (k', n) :: s' => if set_eq k' k then n else count_of s' k
  end.

(** [series.value_counts()]: the values that are not null, each with the
    number of its occurrences; every such value must be hashable. *)
Definition value_counts (cells : list value) : result counts :=
  let present := List.filter (fun c => negb (isnull c)) cells in
  if forallb hashable present then
    Ok (map (fun k => (k, length (List.filter (set_eq k) present)))
          (set_of present))
  else Raise TypeError.

(** [a.add(b, fill_value=0)]: over the union of the keys, the sum of the
    two counts, a missing one being 0. *)
Definition series_add (a b : counts) : counts :=
  map (fun k => (k, (count_of a k + count_of b k)%nat))
      (set_union (map fst a) (map fst b)).

(** [get_class_distribution]; [class_counts] starts as the empty series. *)
Definition get_class_distribution (self : DbModule) : result counts :=
  let class_counts := [] in
  let? cells := series (imageCircleRegions self) "class" in
  let? c := value_counts cells in
  let class_counts := series_add class_counts c in
  let? cells := series (imageBoxRegions self) "class" in
  let? c := value_counts cells in
  let class_counts := series_add class_counts c in
  let? cells := series (imagePolygonRegions self) "class" in
  let? c := value_counts cells in
  let class_counts := series_add class_counts c in
  Ok class_counts.

(** * Vocabulary of the statements *)

(** Definitions that the statements below use to name what a call leaves
    behind.  None of them is part of the program. *)

(** The calls that the insert path makes for the classes of an image. *)
Definition registrations (classes : list value) (name src : value)
  : list event :=
  flat_map (fun c => if py_eq c (VStr "") then []
                     else [add_image_folder c name src]) classes.

(** A record for which the class registration of the insert path completes:
    a region-level record has no [selected-classes]; an image-level record
    has it, iterable, next to [image-name] and [image-src] sequences. *)
Definition registrable (R : dict) : Prop :=
  match dict_get R "selected-classes" with
  | None => True
  | Some v =>
      exists classes name src,
        py_iter (split_single v) = Ok classes /\
        first_of R "image-name" = Ok name /\
        first_of R "image-src" = Ok src
  end.

(** The category handler calls of the insert path for the record [R]. *)
Definition new_calls (R : dict) : list event :=
  match dict_get R "selected-classes",
        first_of R "image-name", first_of R "image-src" with
  | Some v, Ok name, Ok src =>
      match py_iter (split_single v) with
      | Ok classes => registrations classes name src
      | Raise _ => []
      end
  | _, _, _ => []
  end.

(** The record [R] with every field unwrapped as the update path does. *)
Definition unwrap_all (status : Z) (R : dict) : result dict :=
  rmapM (fun kv => let? v := unwrap status (snd kv) in Ok (fst kv, v)) R.

(** The frame after the writes [df.at[i, k] = v] for the fields of [R]. *)
Definition write_fields (i : nat) (R : dict) (T : DataFrame) : DataFrame :=
  fold_left (fun d kv => at_set d i (fst kv) (snd kv)) R T.

(** The row after the same writes. *)
Definition write_row (R : dict) (r : gmap string value) : gmap string value :=
  fold_left (fun r kv => <[fst kv := snd kv]> r) R r.

(** The category handler calls of the update path. *)
Definition update_calls (R : dict) (old_cat_set new_cat_set : list value)
  : list event :=
  match first_of R "image-name", first_of R "image-src" with
  | Ok name, Ok src =>
      if dict_in "image-name" R then
        map (fun c => add_image_folder c name src)
            (set_diff new_cat_set old_cat_set) ++
        map (fun c => remove_image_folder c name)
            (set_diff old_cat_set new_cat_set)
      else []
  | _, _ => []
  end.

(** The record names its image whenever it has an [image-name] field. *)
Definition names_image (R : dict) : Prop :=
  dict_in "image-name" R = true ->
  exists name src,
    first_of R "image-name" = Ok name /\ first_of R "image-src" = Ok src.

(** A computation that leaves the four files as they are, whatever it
    returns or raises. *)
Definition keeps_files {A} (m : M DbModule A) : Prop :=
  forall self self' r, m self = (self', r) -> files self' = files self.

(** A computation that leaves the files as they are when it raises. *)
Definition keeps_files_on_raise {A} (m : M DbModule A) : Prop :=
  forall self self' e, m self = (self', Raise e) -> files self' = files self.

(** A record of the region normalizer: no [selected-classes], no
    [image-name], a string class. *)
Definition region_record (R : dict) : Prop :=
  dict_get R "selected-classes" = None /\
  dict_get R "image-name" = None /\
  exists cls, dict_get R "class" = Some (VStr cls).

(** A region frame that the update path can read: it has the columns
    [region-id] and [class], and every class is a string. *)
Definition region_frame (T : DataFrame) : Prop :=
  has_column T "region-id" = true /\
  has_column T "class" = true /\
  forall r, In r (rows T) -> exists cls, cell_of r "class" = VStr cls.

(** The [tags] and the [comment] of a region payload, as [saveRegionInfo]
    reads them. *)
Definition region_tags (d : dict) : value :=
  let tags := default VNone (dict_get d "tags") in
  if py_eq tags VNone then VList [] else tags.

Definition region_comment (d : dict) : value :=
  default (VStr "") (dict_get d "comment").

(** The record that [saveRegionInfo] and [boxRegion] build for a box. *)
Definition box_record (src id cls comment : value) (tags : string)
    (x y w h : value) : dict :=
  [("region-id", id); ("image-src", src); ("class", cls);
   ("comment", comment); ("tags", VStr tags);
   ("x", VList [x]); ("y", VList [y]); ("w", VList [w]); ("h", VList [h])].

(** A region payload of a type that [regionType] does not know, otherwise
    complete. *)
Definition unknown_region (du : dict) (ty : value) : Prop :=
  (exists id, dict_get du "id" = Some id /\ hashable id = true) /\
  dict_get du "type" = Some ty /\
  py_eq ty (VStr "circle") = false /\
  py_eq ty (VStr "box") = false /\
  py_eq ty (VStr "polygon") = false /\
  (exists cls, dict_get du "cls" = Some cls) /\
  (exists tags, str_join ";" (region_tags du) = Ok tags).

(** A valid box payload for the image [src], and the record [R] made of
    it. *)
Definition valid_box (db : dict) (src : value) (R : dict) : Prop :=
  exists id cls tags coords x y w h,
    dict_get db "id" = Some id /\ hashable id = true /\
    dict_get db "type" = Some (VStr "box") /\
    dict_get db "cls" = Some (VStr cls) /\
    str_join ";" (region_tags db) = Ok tags /\
    dict_get db "coords" = Some coords /\
    getitem coords "x" = Ok x /\ getitem coords "y" = Ok y /\
    getitem coords "w" = Ok w /\ getitem coords "h" = Ok h /\
    R = box_record src id (VStr cls) (region_comment db) tags x y w h.

(** ** Sample data *)

(** The cells of a frame, row by row and column by column. *)
Definition frame_view (df : DataFrame) : list dict :=
  map (fun r => map (fun c => (c, cell_of r c)) (columns df)) (rows df).

(** The id, the image and the class of every row of a region frame. *)
Definition regions_view (df : DataFrame) : list (value * value * value) :=
  map (fun r => (cell_of r "region-id", cell_of r "image-src",
                 cell_of r "class")) (rows df).

(** A payload for the image [src]. *)
Definition payload_fields (name src : string) (cls : list string)
    (regions : list value) : dict :=
  [("name", VStr name); ("src", VStr src); ("comment", VStr "");
   ("cls", VList (map VStr cls)); ("regions", VList regions)].

Definition payload_for (name src : string) (cls : list string)
    (regions : list value) : value :=
  VDict (payload_fields name src cls regions).

(** A payload for the image [s], named [a.png]. *)
Definition image_payload : list string -> list value -> value :=
  payload_for "a.png" "s".

Definition box_coords : value :=
  VDict [("x", VNum 1); ("y", VNum 2); ("w", VNum 3); ("h", VNum 4)].

Definition box_fields (id : value) (cls : string) : dict :=
  [("id", id); ("type", VStr "box"); ("cls", VStr cls); ("coords", box_coords)].

Definition box_region (id : value) (cls : string) : value :=
  VDict (box_fields id cls).



(** A region of a type that the handler does not know. *)
Definition ellipse_fields (id : value) (cls : string) : dict :=
  [("id", id); ("type", VStr "ellipse"); ("cls", VStr cls)].

Definition ellipse_region (id : value) (cls : string) : value :=
  VDict (ellipse_fields id cls).


(** A box that carries no [coords]. *)
Definition box_without_coords (id : value) : value :=
  VDict [("id", id); ("type", VStr "box"); ("cls", VStr "cat")].

(** An images frame as [read_csv] gives it: one row for the image [s], with
    the classes [A] and [B]. *)
Definition stored_images : DataFrame :=
  {| columns := images_columns;
     rows := [list_to_map
                [("image-name", VStr "a.png"); ("selected-classes", VStr "A;B");
                 ("comment", VStr ""); ("image-src", VStr "s");
                 ("processed", VNum 1)]] |}.

(** The record that [getImageData] builds for the image [s] with the
    classes [B] and [C]. *)
Definition record_BC : dict :=
  [("image-name", VList [VStr "a.png"]); ("image-src", VList [VStr "s"]);
   ("comment", VList [VStr ""]); ("selected-classes", VList [VStr "B;C"]);
   ("image-original-height", VList []); ("image-original-width", VList []);
   ("processed", VList [VNum 1])].

(** The record that the normalizer builds for [box_region id cls]. *)
Definition box_record_of (id : value) (cls : string) : dict :=
  box_record (VStr "s") id (VStr cls) (VStr "") "" (VNum 1) (VNum 2)
    (VNum 3) (VNum 4).



(** The images frame with a [class] column, for an image-level record
    that carries a [class] field. *)
Definition stored_images_with_class : DataFrame :=
  {| columns := "class" :: images_columns; rows := rows stored_images |}.

(** An image-level record with a [class] field and no empty field. *)
Definition record_BC_with_class : dict :=
  [("class", VList [VStr ""]); ("image-name", VList [VStr "a.png"]);
   ("image-src", VList [VStr "s"]); ("selected-classes", VList [VStr "B;C"])].

(** The box frame after one session with the box 1 of class [cat]. *)
Definition boxes_cat : DataFrame :=
  imageBoxRegions
    (fst (handleNewData (image_payload [] [box_region (VNum 1) "cat"]) init)).

(** A session whose second region raises. *)
Definition payload_half : value :=
  image_payload [] [box_region (VNum 1) "cat"; box_without_coords (VNum 2)].







(** * Properties *)

(** ** Stepping through a computation *)

Section monad_steps.
Context {S A B : Type}.
Implicit Types (s : S) (k : A -> M S B).

Lemma bind_ok (m : M S A) k s s' a :
  m s = (s', Ok a) -> bind m k s = k a s'.
Proof. unfold bind. by intros ->. Qed.

Lemma bind_raise (m : M S A) k s s' e :
  m s = (s', Raise e) -> bind m k s = (s', Raise e).
Proof. unfold bind. by intros ->. Qed.

Lemma bind_lift_ok a k s : bind (lift (Ok a)) k s = k a s.
Proof. done. Qed.


Lemma bind_ret a k s : bind (ret a) k s = k a s.
Proof. done. Qed.

Lemma bind_get (k : S -> M S B) s : bind get k s = k s s.
Proof. done. Qed.

Lemma bind_modify (f : S -> S) (k : unit -> M S B) s :
  bind (modify f) k s = k tt (f s).
Proof. done. Qed.

End monad_steps.

Lemma for_each_cons {S A} (x : A) (l : list A) (body : A -> M S unit) :
  for_each (x :: l) body = (body x ;; for_each l body).
Proof. done. Qed.

Lemma bind_bind {S A B C} (m : M S A) (f : A -> M S B) (g : B -> M S C) s :
  bind (bind m f) g s = bind m (fun a => bind (f a) g) s.
Proof. unfold bind. destruct (m s) as [s' [a|e]]; done. Qed.

(** Case analysis on the first step of a computation in [result]. *)
Ltac step_result H :=
  match type of H with
  | rbind ?r _ = _ =>
      let E := fresh "E" in
      destruct r eqn:E; cbn [rbind] in H; [|discriminate H]
  end.

Lemma try_except_raise (m : M DbModule unit) (self self' : DbModule) (e : exn) :
  m self = (self', Raise e) ->
  try_except m self = (set_log (log self' ++ [print_error e]) self', false).
Proof. unfold try_except. by intros ->. Qed.

Lemma try_except_ok (m : M DbModule unit) (self self' : DbModule) :
  m self = (self', Ok tt) -> try_except m self = (self', true).
Proof. unfold try_except. by intros ->. Qed.

(** ** Generic facts *)

Lemma list_to_map_dict_get (R : dict) (k : string) :
  (list_to_map R : gmap string value) !! k = dict_get R k.
Proof.
  induction R as [|[k' v] R IH]; simpl; [apply lookup_empty|].
  destruct (String.eqb_spec k' k) as [->|Hne].
  - apply lookup_insert_eq.
  - rewrite lookup_insert_ne by done. exact IH.
Qed.

Lemma dict_in_get (R : dict) (k : string) :
  dict_in k R = true <-> exists v, dict_get R k = Some v.
Proof.
  unfold dict_in. destruct (dict_get R k); split; eauto; try done.
  intros [? ?]; done.
Qed.

Lemma flat_map_singleton {A B} (f : A -> B) (l : list A) :
  flat_map (fun x => [f x]) l = map f l.
Proof. induction l; simpl; congruence. Qed.

Lemma first_true_Some (mask : list bool) (i : nat) :
  first_true mask = Some i ->
  mask !! i = Some true /\ forall j, (j < i)%nat -> mask !! j = Some false.
Proof.
  revert i. induction mask as [|b mask IH]; intros i Hi; simpl in Hi; [done|].
  destruct b.
  - inversion Hi; subst. split; [done|]. intros j Hj. lia.
  - destruct (first_true mask) as [i'|]; simpl in Hi; [|done].
    inversion Hi; subst. destruct (IH i' eq_refl) as [H1 H2].
    split; [done|]. intros [|j] Hj; [done|]. simpl. apply H2. lia.
Qed.


Lemma length_cmp_zip (cells us : list value) :
  length us = length cells -> length (cmp_zip cells us) = length cells.
Proof.
  revert us. induction cells as [|c cells IH]; intros [|u us] H; simpl in *;
    try done. f_equal. apply IH. lia.
Qed.

Lemma series_eq_length (cells : list value) (uid : value) (mask : list bool) :
  series_eq cells uid = Ok mask -> length mask = length cells.
Proof.
  unfold series_eq. intros H.
  destruct uid; try (inversion H; subst; apply length_map).
  destruct (Nat.eqb_spec (length l) (length cells)) as [Hl|]; [|done].
  inversion H; subst. by apply length_cmp_zip.
Qed.

(** What [findInfoInDb] returns when it finds a row: the first one whose key
    cell compares equal to [uid]. *)
Lemma findInfoInDb_Some (T : DataFrame) (c : string) (uid : value) (i : nat) :
  findInfoInDb T c uid = Ok (Some i) ->
  exists cells mask r,
    series T c = Ok cells /\ series_eq cells uid = Ok mask /\
    mask !! i = Some true /\
    (forall j, (j < i)%nat -> mask !! j = Some false) /\
    rows T !! i = Some r.
Proof.
  unfold findInfoInDb. intros H.
  destruct (series T c) as [cells|] eqn:Hc; simpl in H; [|done].
  destruct (series_eq cells uid) as [mask|] eqn:Hm; simpl in H; [|done].
  inversion H as [Hi]. destruct (first_true_Some _ _ Hi) as [H1 H2].
  assert (i < length (rows T))%nat as Hlt.
  { apply lookup_lt_Some in H1. rewrite (series_eq_length _ _ _ Hm) in H1.
    unfold series in Hc. destruct (has_column T c); [|done].
    inversion Hc; subst. by rewrite length_map in H1. }
  destruct (lookup_lt_is_Some_2 _ _ Hlt) as [r Hr].
  by exists cells, mask, r.
Qed.

(** ** The insert path of [saveRegionInDB] *)

(** A loop whose body only calls the category handler. *)
Lemma for_each_emits {A} (body : A -> M Db unit) (f : A -> list event)
    (xs : list A) (T : DataFrame) (l : list event) :
  (forall x l', body x {| database := T; calls := l' |}
                = ({| database := T; calls := l' ++ f x |}, Ok tt)) ->
  for_each xs body {| database := T; calls := l |}
  = ({| database := T; calls := l ++ flat_map f xs |}, Ok tt).
Proof.
  intros Hbody. revert l.
  induction xs as [|x xs IH]; intros l; simpl.
  - by rewrite app_nil_r.
  - unfold bind. rewrite Hbody, IH. by rewrite <- app_assoc.
Qed.

Lemma register_loop (R : dict) (name src : value) (classes : list value)
    (T : DataFrame) (l : list event) :
  first_of R "image-name" = Ok name ->
  first_of R "image-src" = Ok src ->
  for_each classes (fun class_ =>
      if py_eq class_ (VStr "") then ret tt
      else
        do name <- lift (first_of R "image-name");
        do src <- lift (first_of R "image-src");
        emit (add_image_folder class_ name src))
    {| database := T; calls := l |}
  = ({| database := T; calls := l ++ registrations classes name src |}, Ok tt).
Proof.
  intros Hn Hs. apply for_each_emits. intros c l'.
  destruct (py_eq c (VStr "")).
  - unfold ret. by rewrite app_nil_r.
  - unfold bind, lift. by rewrite Hn, Hs.
Qed.

Lemma saveRegionInDB_insert (T : DataFrame) (idColumn : string)
    (uid : value) (R : dict) (status : Z) (l : list event) :
  findInfoInDb T idColumn uid = Ok None ->
  registrable R ->
  saveRegionInDB idColumn uid R status {| database := T; calls := l |}
  = ({| database := T; calls := l ++ new_calls R |},
     Ok (pd_concat T (DataFrame_from_dict R))).
Proof.
  intros Hfind Hreg.
  unfold saveRegionInDB. rewrite bind_get. cbn [database].
  rewrite Hfind, bind_lift_ok.
  unfold registrable in Hreg. unfold dict_in.
  destruct (dict_get R "selected-classes") as [v|] eqn:Hsel.
  - destruct Hreg as (classes & name & src & Hit & Hn & Hs).
    assert (new_calls R = registrations classes name src) as ->.
    { unfold new_calls. by rewrite Hsel, Hn, Hs, Hit. }
    unfold bind at 1. unfold bind at 1. unfold lift at 1, dict_item.
    rewrite Hsel. unfold bind at 1. unfold lift at 1. rewrite Hit.
    by rewrite (register_loop R name src).
  - assert (new_calls R = []) as ->.
    { unfold new_calls. by rewrite Hsel. }
    unfold bind, ret. by rewrite app_nil_r.
Qed.


(** ** The update path of [saveRegionInDB] *)

Lemma write_loop (status : Z) (i : nat) (R R' : dict) (T : DataFrame)
    (l : list event) :
  unwrap_all status R = Ok R' ->
  for_each R (fun kv =>
      do _value <- lift (unwrap status (snd kv));
      modify (set_database (fun d => at_set d i (fst kv) _value)))
    {| database := T; calls := l |}
  = ({| database := write_fields i R' T; calls := l |}, Ok tt).
Proof.
  revert R' T. induction R as [|[k v] R IH]; intros R' T HR.
  - by inversion HR.
  - unfold unwrap_all in HR. simpl in HR.
    destruct (unwrap status v) as [v'|e] eqn:Hv; simpl in HR; [|done].
    fold (unwrap_all status R) in HR.
    destruct (unwrap_all status R) as [R''|e] eqn:HR''; simpl in HR; [|done].
    inversion HR; subst R'. clear HR.
    rewrite for_each_cons. cbv beta. cbn [fst snd].
    rewrite bind_bind, Hv, bind_lift_ok, bind_modify.
    exact (IH R'' (at_set T i k v') eq_refl).
Qed.

Lemma rows_write_fields (i : nat) (R : dict) (T : DataFrame) :
  rows (write_fields i R T) = alter (write_row R) i (rows T).
Proof.
  revert T. induction R as [|[k v] R IH]; intros T; simpl.
  - unfold write_row. simpl. symmetry. apply list_alter_id. done.
  - unfold write_fields in *. simpl. rewrite IH. simpl.
    by rewrite list_alter_alter_eq.
Qed.


Lemma write_row_other (R : dict) (r : gmap string value) (k : string) :
  dict_get R k = None -> write_row R r !! k = r !! k.
Proof.
  revert r. induction R as [|[k' v] R IH]; intros r Hk; simpl in *; [done|].
  destruct (String.eqb_spec k' k) as [->|Hne]; [done|].
  unfold write_row in *. simpl. rewrite IH by done. by rewrite lookup_insert_ne.
Qed.

Lemma write_row_field (R : dict) (r : gmap string value) (k : string)
    (v : value) :
  NoDup (map fst R) -> dict_get R k = Some v -> write_row R r !! k = Some v.
Proof.
  revert r. induction R as [|[k' v'] R IH]; intros r Hnd Hk; simpl in *; [done|].
  inversion Hnd as [|? ? Hnotin Hnd']; subst.
  destruct (String.eqb_spec k' k) as [->|Hne].
  - inversion Hk; subst v'. unfold write_row. simpl.
    fold (write_row R (<[k:=v]> r)). rewrite write_row_other.
    + apply lookup_insert_eq.
    + clear -Hnotin. induction R as [|[k2 v2] R IH]; simpl in *; [done|].
      destruct (String.eqb_spec k2 k) as [->|Hne].
      * exfalso. apply Hnotin. by left.
      * apply IH. intros Hin. apply Hnotin. by right.
  - unfold write_row in *. simpl. by apply IH.
Qed.



Lemma saveRegionInDB_update (T : DataFrame) (idColumn : string)
    (uid : value) (R R' : dict) (status : Z) (l : list event) (i : nat)
    (old_cat_set new_cat_set : list value) :
  findInfoInDb T idColumn uid = Ok (Some i) ->
  category_sets T i R = Ok (old_cat_set, new_cat_set) ->
  unwrap_all status R = Ok R' ->
  names_image R ->
  saveRegionInDB idColumn uid R status {| database := T; calls := l |}
  = ({| database := write_fields i R' T;
        calls := l ++ update_calls R old_cat_set new_cat_set |},
     Ok (write_fields i R' T)).
Proof.
  intros Hfind Hsets HR' Himg.
  unfold saveRegionInDB. rewrite bind_get. cbn [database].
  rewrite Hfind, bind_lift_ok, Hsets, bind_lift_ok.
  rewrite (bind_ok _ _ _ _ _ (write_loop status i R R' T l HR')).
  unfold get_lists_absolute, update_calls.
  destruct (dict_in "image-name" R) eqn:Hin.
  - destruct (Himg Hin) as (name & src & Hn & Hs). rewrite Hn, Hs.
    rewrite bind_bind.
    erewrite bind_ok; last first.
    { apply (for_each_emits _ (fun c => [add_image_folder c name src])).
      intros c l'. done. }
    erewrite bind_ok; last first.
    { apply (for_each_emits _ (fun c => [remove_image_folder c name])).
      intros c l'. done. }
    rewrite bind_get. rewrite !flat_map_singleton. unfold ret. cbn [database].
    by rewrite <- app_assoc.
  - rewrite bind_ret, bind_get. unfold ret. cbn [database].
    destruct (first_of R "image-name"), (first_of R "image-src");
      by rewrite app_nil_r.
Qed.


(** ** The handlers on an image that is already stored *)


Lemma getImageData_shape (data : value) (R : dict) :
  getImageData data = Ok R ->
  exists name src comment classes height width,
    getitem data "src" = Ok src /\
    R = [("image-name", VList [name]); ("image-src", VList [src]);
         ("comment", VList [comment]); ("selected-classes", VList [VStr classes]);
         ("image-original-height", height); ("image-original-width", width);
         ("processed", VList [VNum 1])].
Proof.
  unfold getImageData. intros H.
  do 9 step_result H. inversion H. eauto 10.
Qed.





(** ** Persistence happens last *)

Lemma keeps_files_ret {A} (a : A) : keeps_files (ret a).
Proof. intros self self' r H. by inversion H. Qed.

Lemma keeps_files_lift {A} (r : result A) : keeps_files (lift r).
Proof. intros self self' r' H. by inversion H. Qed.

Lemma keeps_files_get : keeps_files (@get DbModule).
Proof. intros self self' r H. by inversion H. Qed.

Lemma keeps_files_modify (f : DbModule -> DbModule) :
  (forall self, files (f self) = files self) -> keeps_files (modify f).
Proof. intros Hf self self' r H. inversion H; subst. apply Hf. Qed.

Lemma keeps_files_bind {A B} (m : M DbModule A) (k : A -> M DbModule B) :
  keeps_files m -> (forall a, keeps_files (k a)) -> keeps_files (bind m k).
Proof.
  intros Hm Hk self self' r H. unfold bind in H.
  destruct (m self) as [s1 [a|e]] eqn:E.
  - rewrite (Hk a _ _ _ H). by apply (Hm _ _ _ E).
  - inversion H; subst. by apply (Hm _ _ _ E).
Qed.

Lemma keeps_files_for_each {A} (l : list A) (body : A -> M DbModule unit) :
  (forall x, keeps_files (body x)) -> keeps_files (for_each l body).
Proof.
  intros Hbody. induction l as [|x l IH]; simpl.
  - apply keeps_files_ret.
  - apply keeps_files_bind; [apply Hbody|]. intros _. apply IH.
Qed.

Lemma keeps_files_on_frame {A} (t : table) (m : M Db A) :
  keeps_files (on_frame t m).
Proof.
  intros self self' r H. unfold on_frame in H.
  destruct (m _) as [db r']. by inversion H.
Qed.

Lemma keeps_files_save_into (t : table) (c : string) (uid : value)
    (data : dict) (status : Z) : keeps_files (save_into t c uid data status).
Proof.
  unfold save_into. apply keeps_files_bind; [apply keeps_files_on_frame|].
  intros d. by apply keeps_files_modify.
Qed.

Create HintDb files.
#[local] Hint Resolve keeps_files_ret keeps_files_lift keeps_files_get
  keeps_files_on_frame keeps_files_save_into : files.

Ltac keeps_files :=
  repeat first
    [ solve [auto with files]
    | apply keeps_files_modify; intros ?; reflexivity
    | apply keeps_files_for_each; intros ?
    | apply keeps_files_bind; [|intros ?] ].

Lemma keeps_files_saveRegionInfo (type imageSrc data : value) :
  keeps_files (saveRegionInfo type imageSrc data).
Proof.
  unfold saveRegionInfo. keeps_files.
  unfold regionType.
  repeat match goal with |- context [if ?b then _ else _] => destruct b end;
    unfold circleRegion, boxRegion, polygonRegion, otherRegion, region_save;
    keeps_files.
Qed.

Lemma keeps_files_save_image_data (data : value) :
  keeps_files (save_image_data data).
Proof. unfold save_image_data. keeps_files. Qed.

Lemma keeps_files_remove_regions (t : table) (stale : list value) :
  keeps_files (remove_regions t stale).
Proof. unfold remove_regions. keeps_files. Qed.

#[local] Hint Resolve keeps_files_saveRegionInfo keeps_files_save_image_data
  keeps_files_remove_regions : files.

Lemma keeps_files_raise {A} (m : M DbModule A) :
  keeps_files m -> keeps_files_on_raise m.
Proof. intros H self self' e. apply H. Qed.

Lemma keeps_files_on_raise_bind {A B} (m : M DbModule A)
    (k : A -> M DbModule B) :
  keeps_files m -> (forall a, keeps_files_on_raise (k a)) ->
  keeps_files_on_raise (bind m k).
Proof.
  intros Hm Hk self self' e H. unfold bind in H.
  destruct (m self) as [s1 [a|e']] eqn:E.
  - rewrite (Hk a _ _ _ H). by apply (Hm _ _ _ E).
  - inversion H; subst. by apply (Hm _ _ _ E).
Qed.

Lemma saveDataAutomatically_returns (self self' : DbModule) (r : result unit) :
  saveDataAutomatically self = (self', r) -> r = Ok tt.
Proof. intros H. by inversion H. Qed.

Lemma handleNewData_try_keeps_files (data : value) :
  keeps_files_on_raise (handleNewData_try data).
Proof.
  unfold handleNewData_try.
  repeat (apply keeps_files_on_raise_bind; [by keeps_files|intros ?]).
  intros self self' e H. by apply saveDataAutomatically_returns in H.
Qed.

(** C8.  When the [try] block of [handleNewData] raises, the handler
    returns [False] and the four files are as they were before the call. *)
Theorem handleNewData_failure_writes_nothing (data : value)
    (self self' : DbModule) (e : exn) :
  handleNewData_try data self = (self', Raise e) ->
  snd (handleNewData data self) = false /\
  files (fst (handleNewData data self)) = files self.
Proof.
  intros H. unfold handleNewData. rewrite (try_except_raise _ _ _ _ H).
  split; [done|]. simpl. by apply (handleNewData_try_keeps_files data _ _ e).
Qed.

(** ** Upserting a region record *)

Lemma set_frame_set_log (t : table) (d T : DataFrame) (l : list event)
    (self : DbModule) :
  set_frame t d (set_log l (set_frame t T self)) = set_log l (set_frame t d self).
Proof. destruct self; destruct t; reflexivity. Qed.

Lemma save_into_ok (t : table) (c : string) (uid : value) (R : dict)
    (status : Z) (self : DbModule) (T T' : DataFrame) (l : list event) :
  saveRegionInDB c uid R status {| database := frame_of t self; calls := log self |}
  = ({| database := T; calls := l |}, Ok T') ->
  save_into t c uid R status self = (set_log l (set_frame t T' self), Ok tt).
Proof.
  intros H. unfold save_into.
  erewrite bind_ok; last first.
  { unfold on_frame. rewrite H. reflexivity. }
  unfold modify. cbn [database calls]. by rewrite set_frame_set_log.
Qed.

Lemma save_into_raise (t : table) (c : string) (uid : value) (R : dict)
    (status : Z) (self : DbModule) (T : DataFrame) (l : list event) (e : exn) :
  saveRegionInDB c uid R status {| database := frame_of t self; calls := log self |}
  = ({| database := T; calls := l |}, Raise e) ->
  save_into t c uid R status self = (set_log l (set_frame t T self), Raise e).
Proof.
  intros H. unfold save_into. apply bind_raise.
  unfold on_frame. by rewrite H.
Qed.

Lemma unwrap_all_1 (R : dict) : unwrap_all 1 R = Ok R.
Proof.
  unfold unwrap_all. induction R as [|[k v] R IH]; [done|].
  cbn [rmapM]. rewrite IH. reflexivity.
Qed.

Lemma py_set_str (s : string) : exists l, py_set (VStr s) = Ok l.
Proof.
  unfold py_set. simpl.
  assert (forallb hashable (chars s) = true) as ->; [|by eexists].
  unfold chars. induction (list_ascii_of_string s); simpl; auto.
Qed.

Lemma findInfoInDb_hashable (T : DataFrame) (c : string) (uid : value) :
  has_column T c = true -> hashable uid = true ->
  exists o, findInfoInDb T c uid = Ok o.
Proof.
  intros Hc Hu. unfold findInfoInDb, series. rewrite Hc. simpl.
  destruct uid; try done; simpl; by eexists.
Qed.

Lemma write_row_fields (R : dict) (r : gmap string value) :
  NoDup (map fst R) ->
  forall k v, dict_get R k = Some v -> write_row R r !! k = Some v.
Proof. intros Hnd k v. by apply write_row_field. Qed.

(** The upsert of a region record into a region frame: the frame that
    [self] holds afterwards has a row with the fields of the record; no call
    is made to the category handler. *)
Lemma save_region_record (t : table) (uid : value) (R : dict)
    (self : DbModule) :
  region_record R -> region_frame (frame_of t self) ->
  hashable uid = true -> NoDup (map fst R) ->
  exists T' i row,
    save_into t "region-id" uid R 1 self = (set_frame t T' self, Ok tt) /\
    rows T' !! i = Some row /\
    (forall k v, dict_get R k = Some v -> row !! k = Some v) /\
    (length (rows (frame_of t self)) <= length (rows T'))%nat /\
    (findInfoInDb (frame_of t self) "region-id" uid = Ok None ->
     T' = pd_concat (frame_of t self) (DataFrame_from_dict R)) /\
    (forall j, findInfoInDb (frame_of t self) "region-id" uid = Ok (Some j) ->
     T' = write_fields j R (frame_of t self)).
Proof.
  intros (Hsel & Himg & cls & Hcls) (Hid & Hclass & Hrows) Hu Hnd.
  set (T := frame_of t self) in *.
  destruct (findInfoInDb_hashable T "region-id" uid Hid Hu) as [[j|] Hfind].
  - (* update *)
    destruct (findInfoInDb_Some _ _ _ _ Hfind)
      as (cells & mask & r & _ & _ & _ & _ & Hr).
    destruct (Hrows r) as [cls0 Hcls0].
    { apply list_elem_of_In. by eapply list_elem_of_lookup_2. }
    destruct (py_set_str cls0) as [old Hold].
    destruct (py_set_str cls) as [new Hnew].
    assert (category_sets T j R = Ok (old, new)) as Hsets.
    { unfold category_sets, dict_item, dict_in. rewrite Hcls, Hsel.
      cbn [rbind]. unfold loc. rewrite Hclass, Hr, Hcls0. cbn [rbind].
      rewrite Hold. cbn [rbind]. by rewrite Hnew. }
    assert (names_image R) as Hni.
    { unfold names_image, dict_in. by rewrite Himg. }
    pose proof (saveRegionInDB_update T "region-id" uid R R 1 (log self) j
                  old new Hfind Hsets (unwrap_all_1 R) Hni) as Hsave.
    assert (update_calls R old new = []) as Hcalls.
    { unfold update_calls, dict_in. rewrite Himg.
      by destruct (first_of R "image-name"), (first_of R "image-src"). }
    rewrite Hcalls, app_nil_r in Hsave.
    exists (write_fields j R T), j, (write_row R r).
    split.
    { by rewrite (save_into_ok _ _ _ _ _ _ _ _ _ Hsave). }
    rewrite rows_write_fields.
    split; [by rewrite list_lookup_alter_eq, Hr|].
    split; [by apply write_row_fields|].
    split; [by rewrite length_alter|].
    split; [intros H; rewrite Hfind in H; discriminate H|].
    intros j' Hj'. rewrite Hfind in Hj'. by inversion Hj'.
  - (* insert *)
    assert (registrable R) as Hreg by (unfold registrable; by rewrite Hsel).
    pose proof (saveRegionInDB_insert T "region-id" uid R 1 (log self)
                  Hfind Hreg) as Hsave.
    assert (new_calls R = []) as Hcalls by (unfold new_calls; by rewrite Hsel).
    rewrite Hcalls, app_nil_r in Hsave.
    exists (pd_concat T (DataFrame_from_dict R)), (length (rows T)),
      (list_to_map R).
    split.
    { by rewrite (save_into_ok _ _ _ _ _ _ _ _ _ Hsave). }
    split.
    { simpl. rewrite lookup_app_r by lia. by rewrite Nat.sub_diag. }
    split; [intros k v Hk; by rewrite list_to_map_dict_get|].
    split; [simpl; rewrite length_app; lia|].
    split; [done|]. intros j' Hj'. rewrite Hfind in Hj'. discriminate Hj'.
Qed.

(** ** The session reconciler *)

Lemma NoDup_box_record (src id cls comment : value) (tags : string)
    (x y w h : value) :
  NoDup (map fst (box_record src id cls comment tags x y w h)).
Proof.
  cbn [map fst box_record].
  repeat (apply NoDup_cons_2;
          [intros Hin; repeat (apply elem_of_cons in Hin as [Hin|Hin];
                               [discriminate Hin|]);
           by apply elem_of_nil in Hin|]).
  apply NoDup_nil_2.
Qed.

Lemma saveRegionInfo_regionType (type src : value) (d : dict)
    (id cls : value) (tags : string) (self : DbModule) :
  dict_get d "id" = Some id -> dict_get d "cls" = Some cls ->
  str_join ";" (region_tags d) = Ok tags ->
  saveRegionInfo type src (VDict d) self
  = regionType type
      [("region-id", id); ("image-src", src); ("class", cls);
       ("comment", region_comment d); ("tags", VStr tags)]
      (VDict d) self.
Proof.
  intros Hid Hcls Htags. unfold saveRegionInfo, getitem, dict_item.
  rewrite Hid, bind_lift_ok, Hcls, bind_lift_ok.
  unfold py_contains. rewrite bind_lift_ok.
  unfold region_comment, region_tags, dict_in in *.
  destruct (dict_get d "comment") as [c|]; rewrite bind_lift_ok, bind_lift_ok;
    cbn [default]; by rewrite Htags, bind_lift_ok.
Qed.

Lemma saveRegionInfo_other (type src : value) (du : dict) (self : DbModule) :
  unknown_region du type ->
  saveRegionInfo type src (VDict du) self
  = (set_log (log self ++ [print_undefined_type type]) self, Ok tt).
Proof.
  intros ((id & Hid & _) & Hty & Hc & Hb & Hp & (cls & Hcls) & (tags & Htags)).
  rewrite (saveRegionInfo_regionType _ _ _ id cls tags) by done.
  unfold regionType. rewrite Hc, Hb, Hp.
  unfold otherRegion, getitem, dict_item. by rewrite Hty, bind_lift_ok.
Qed.

Lemma saveRegionInfo_box (src : value) (db R : dict) (self : DbModule) :
  valid_box db src R ->
  exists id,
    dict_get R "region-id" = Some id /\ hashable id = true /\
    saveRegionInfo (VStr "box") src (VDict db) self
    = save_into Boxes "region-id" id R 1 self.
Proof.
  intros (id & cls & tags & coords & x & y & w & h & Hid & Hh & _ & Hcls
          & Htags & Hcoords & Hx & Hy & Hw & Hhh & ->).
  exists id. split; [done|]. split; [done|].
  rewrite (saveRegionInfo_regionType _ _ _ id (VStr cls) tags) by done.
  unfold regionType. cbn [py_eq String.eqb Ascii.eqb Bool.eqb].
  unfold boxRegion. unfold getitem at 1. unfold dict_item.
  rewrite Hcoords, bind_lift_ok, Hx, bind_lift_ok, Hy, bind_lift_ok,
    Hw, bind_lift_ok, Hhh, bind_lift_ok.
  reflexivity.
Qed.

Lemma save_image_data_insert (data src : value) (R : dict) (self : DbModule) :
  getImageData data = Ok R ->
  getitem data "src" = Ok src ->
  findInfoInDb (imagesInfo self) "image-src" src = Ok None ->
  save_image_data data self
  = (set_log (log self ++ new_calls R)
       (set_frame Images
          (pd_concat (imagesInfo self) (DataFrame_from_dict R)) self),
     Ok tt).
Proof.
  intros HR Hsrc Hfind. unfold save_image_data. rewrite HR, bind_lift_ok.
  destruct (getImageData_shape _ _ HR)
    as (name & src' & comment & classes & height & width & Hsrc' & ->).
  rewrite Hsrc in Hsrc'. inversion Hsrc'; subst src'.
  unfold first_of at 1.
  cbn [dict_item dict_get String.eqb Ascii.eqb Bool.eqb rbind getitem0].
  rewrite bind_lift_ok.
  eapply save_into_ok. cbn [frame_of].
  apply saveRegionInDB_insert; [done|].
  unfold registrable.
  cbn [dict_get String.eqb Ascii.eqb Bool.eqb split_single py_iter].
  by eexists _, _, _.
Qed.

Lemma select_map_filter {A} (f : A -> bool) (l : list A) :
  select l (map f l) = List.filter f l.
Proof.
  induction l as [|x l IH]; [done|]. simpl. destruct (f x); by rewrite IH.
Qed.

(** What the deletion step keeps of a frame: the rows whose region id is not
    stale. *)
Lemma drop_isin_rows (T : DataFrame) (stale : list value) :
  has_column T "region-id" = true ->
  drop_isin T "region-id" stale
  = Ok {| columns := columns T;
          rows := List.filter
                    (fun r => negb (set_mem (cell_of r "region-id") stale))
                    (rows T) |}.
Proof.
  intros Hc. unfold drop_isin, series. rewrite Hc. cbn [rbind].
  unfold df_filter, isin. rewrite !map_map.
  by rewrite (select_map_filter
                (fun r => negb (set_mem (cell_of r "region-id") stale))).
Qed.

Lemma remove_regions_ok (t : table) (stale : list value) (self : DbModule)
    (kept : DataFrame) :
  drop_isin (frame_of t self) "region-id" stale = Ok kept ->
  remove_regions t stale self = (set_frame t kept self, Ok tt).
Proof.
  intros H. unfold remove_regions. by rewrite bind_get, H, bind_lift_ok.
Qed.

Lemma where_eq_columns (T T' : DataFrame) (c : string) (v : value) :
  where_eq T c v = Ok T' -> columns T' = columns T.
Proof.
  unfold where_eq. intros H. do 2 step_result H. by inversion H.
Qed.

Lemma column_set_has_column (T : DataFrame) (c : string) (s : list value) :
  column_set T c = Ok s -> has_column T c = true.
Proof.
  unfold column_set, series. destruct (has_column T c); [done|]. intros H.
  discriminate H.
Qed.

Lemma regionsToRemove_columns (self : DbModule) (data : value)
    (stale : list value) :
  regionsToRemove self data = Ok stale ->
  has_column (imageCircleRegions self) "region-id" = true /\
  has_column (imageBoxRegions self) "region-id" = true /\
  has_column (imagePolygonRegions self) "region-id" = true.
Proof.
  unfold regionsToRemove. intros H. do 6 step_result H.
  unfold existingRegionIds in *.
  match goal with E : rbind _ _ = Ok _ |- _ => rename E into Hex end.
  do 3 step_result Hex.
  repeat match goal with
  | Hw : where_eq _ _ _ = Ok ?e, Hs : column_set ?e _ = Ok _ |- _ =>
      apply column_set_has_column in Hs; unfold has_column in Hs;
      rewrite (where_eq_columns _ _ _ _ Hw) in Hs; clear Hw
  end.
  by repeat split.
Qed.

Lemma region_frame_filter (T : DataFrame) (f : gmap string value -> bool) :
  region_frame T ->
  region_frame {| columns := columns T; rows := List.filter f (rows T) |}.
Proof.
  intros (H1 & H2 & H3). split; [done|]. split; [done|].
  intros r Hr. apply H3. simpl in Hr. by apply filter_In in Hr as [? ?].
Qed.

Lemma for_each_two {S A} (a b : A) (body : A -> M S unit) (s : S) :
  for_each [a; b] body s = bind (body a) (fun _ => body b) s.
Proof.
  simpl. unfold bind. destruct (body a s) as [s1 [[]|e]]; [|done].
  destruct (body b s1) as [s2 [[]|e]]; done.
Qed.

Lemma in_app_last {A} (x : A) (l : list A) : In x (l ++ [x]).
Proof. apply in_or_app. right. by left. Qed.

(** C7.  A payload with one region of an unknown type and one valid box, in
    either order, for an image that the images frame does not hold yet, in
    a state whose stale regions can be computed: [handleNewData] returns
    [True]; the box frame holds a row with the fields of the box record,
    appended to the kept rows or written over the row of the same id; the
    circle and polygon frames are exactly what the deletion step kept, so no
    row is written for the unknown region, which only leaves a diagnostic;
    the four files hold the four frames. *)
Theorem handleNewData_drops_unknown_type (d du db imageData Rb : dict)
    (regions : list value) (src ty : value) (stale : list value)
    (self : DbModule) :
  getImageData (VDict d) = Ok imageData ->
  dict_get d "src" = Some src ->
  dict_get d "regions" = Some (VList regions) ->
  regions = [VDict du; VDict db] \/ regions = [VDict db; VDict du] ->
  unknown_region du ty ->
  valid_box db src Rb ->
  findInfoInDb (imagesInfo self) "image-src" src = Ok None ->
  regionsToRemove self (VDict d) = Ok stale ->
  region_frame (imageBoxRegions self) ->
  exists self' circles boxes polygons,
    handleNewData (VDict d) self = (self', true) /\
    drop_isin (imageCircleRegions self) "region-id" stale = Ok circles /\
    drop_isin (imageBoxRegions self) "region-id" stale = Ok boxes /\
    drop_isin (imagePolygonRegions self) "region-id" stale = Ok polygons /\
    imageCircleRegions self' = circles /\
    imagePolygonRegions self' = polygons /\
    (exists i row,
       rows (imageBoxRegions self') !! i = Some row /\
       forall k v, dict_get Rb k = Some v -> row !! k = Some v) /\
    (imageBoxRegions self' = pd_concat boxes (DataFrame_from_dict Rb) \/
     exists j, imageBoxRegions self' = write_fields j Rb boxes) /\
    imagesInfo self'
    = pd_concat (imagesInfo self) (DataFrame_from_dict imageData) /\
    In (print_undefined_type ty) (log self') /\
    files self'
    = {| imageInfoName := imagesInfo self';
         circleRegionInfo := imageCircleRegions self';
         boxRegionInfo := imageBoxRegions self';
         polygonInfo := imagePolygonRegions self' |}.
Proof.
  intros HR Hsrc Hregs Horder Hu Hb Hfind Hstale Hframe.
  assert (getitem (VDict d) "src" = Ok src) as Hgsrc.
  { unfold getitem, dict_item. by rewrite Hsrc. }
  destruct (regionsToRemove_columns _ _ _ Hstale) as (Hcc & Hcb & Hcp).
  pose proof (drop_isin_rows _ stale Hcc) as Hdc.
  pose proof (drop_isin_rows _ stale Hcb) as Hdb.
  pose proof (drop_isin_rows _ stale Hcp) as Hdp.
  set (circles := {| columns := columns (imageCircleRegions self); rows := _ |}) in Hdc.
  set (boxes := {| columns := columns (imageBoxRegions self); rows := _ |}) in Hdb.
  set (polygons := {| columns := columns (imagePolygonRegions self); rows := _ |}) in Hdp.
  set (images := pd_concat (imagesInfo self) (DataFrame_from_dict imageData)).
  (* the state in which the regions are processed *)
  set (s0 := set_frame Polygons polygons (set_frame Boxes boxes
               (set_frame Circles circles
                  (set_log (log self ++ new_calls imageData)
                     (set_frame Images images self))))).
  assert (region_frame (frame_of Boxes s0)) as Hframe0.
  { cbn [frame_of s0 set_frame imageBoxRegions]. by apply region_frame_filter. }
  pose proof Hb as Hb0.
  destruct Hb0 as (id & cls & tags & coords & x & y & w & h & Hid & Hh & Hty
                   & Hcls & Htags & Hcoords & Hx & Hy & Hw & Hhh & HRb).
  assert (region_record Rb) as Hrec.
  { subst Rb. repeat split; try reflexivity. by exists cls. }
  assert (NoDup (map fst Rb)) as Hnd.
  { subst Rb. apply NoDup_box_record. }
  assert (handleNewData_try (VDict d) self
          = bind (for_each regions (fun region =>
               do type <- lift (getitem region "type");
               do src <- lift (getitem (VDict d) "src");
               saveRegionInfo type src region))
              (fun _ => saveDataAutomatically) s0) as Hprefix.
  { unfold handleNewData_try.
    rewrite (bind_ok _ _ _ _ _ (save_image_data_insert _ _ _ _ HR Hgsrc Hfind)).
    rewrite bind_get.
    change (regionsToRemove _ (VDict d)) with (regionsToRemove self (VDict d)).
    rewrite Hstale, bind_lift_ok.
    set (s1 := set_log (log self ++ new_calls imageData)
                 (set_frame Images images self)).
    rewrite (bind_ok _ _ _ _ _ (remove_regions_ok Circles stale s1 circles Hdc)).
    rewrite (bind_ok _ _ _ _ _
               (remove_regions_ok Boxes stale (set_frame Circles circles s1)
                  boxes Hdb)).
    rewrite (bind_ok _ _ _ _ _
               (remove_regions_ok Polygons stale
                  (set_frame Boxes boxes (set_frame Circles circles s1))
                  polygons Hdp)).
    unfold getitem at 1. unfold dict_item. rewrite Hregs, bind_lift_ok.
    cbn [py_iter]. rewrite bind_lift_ok. reflexivity. }
  (* the two regions *)
  assert (forall s, (do type <- lift (getitem (VDict du) "type");
                     do src <- lift (getitem (VDict d) "src");
                     saveRegionInfo type src (VDict du)) s
                    = (set_log (log s ++ [print_undefined_type ty]) s, Ok tt))
    as Hother.
  { intros s. destruct Hu as (? & Hty' & ?). unfold getitem at 1, dict_item.
    rewrite Hty', bind_lift_ok, Hgsrc, bind_lift_ok.
    apply saveRegionInfo_other. by split. }
  assert (forall s, (do type <- lift (getitem (VDict db) "type");
                     do src <- lift (getitem (VDict d) "src");
                     saveRegionInfo type src (VDict db)) s
                    = save_into Boxes "region-id" id Rb 1 s) as Hbox.
  { intros s. unfold getitem at 1, dict_item.
    rewrite Hty, bind_lift_ok, Hgsrc, bind_lift_ok.
    destruct (saveRegionInfo_box src db Rb s Hb) as (id' & Hid' & _ & ->).
    subst Rb. cbn in Hid'. by inversion Hid'. }
  (* the upsert of the box, in a state whose box frame is [boxes] *)
  assert (forall s, frame_of Boxes s = boxes ->
          exists T' i row,
            save_into Boxes "region-id" id Rb 1 s = (set_frame Boxes T' s, Ok tt) /\
            rows T' !! i = Some row /\
            (forall k v, dict_get Rb k = Some v -> row !! k = Some v) /\
            (T' = pd_concat boxes (DataFrame_from_dict Rb) \/
             exists j, T' = write_fields j Rb boxes)) as Hsave.
  { intros s Hs.
    assert (region_frame (frame_of Boxes s)) as Hfs by (by rewrite Hs).
    destruct (save_region_record Boxes id Rb s Hrec Hfs Hh Hnd)
      as (T' & i & row & H1 & H2 & H3 & _ & H5 & H6).
    exists T', i, row. do 3 (split; [done|]).
    destruct Hfs as (Hc1 & _).
    destruct (findInfoInDb_hashable _ "region-id" id Hc1 Hh) as [[j|] Hf].
    - right. exists j. rewrite <- Hs. by apply H6.
    - left. rewrite <- Hs. by apply H5. }
  assert (exists final T' i row,
            handleNewData_try (VDict d) self = (final, Ok tt) /\
            imagesInfo final = images /\
            imageCircleRegions final = circles /\
            imageBoxRegions final = T' /\
            imagePolygonRegions final = polygons /\
            In (print_undefined_type ty) (log final) /\
            files final
            = {| imageInfoName := imagesInfo final;
                 circleRegionInfo := imageCircleRegions final;
                 boxRegionInfo := imageBoxRegions final;
                 polygonInfo := imagePolygonRegions final |} /\
            rows T' !! i = Some row /\
            (forall k v, dict_get Rb k = Some v -> row !! k = Some v) /\
            (T' = pd_concat boxes (DataFrame_from_dict Rb) \/
             exists j, T' = write_fields j Rb boxes)) as Hfinal.
  { rewrite Hprefix.
    destruct Horder as [-> | ->].
    - (* the unknown region first *)
      set (sA := set_log (log s0 ++ [print_undefined_type ty]) s0).
      destruct (Hsave sA eq_refl) as (T' & i & row & Hs & Hrow & Hfields & HT').
      exists (set_files {| imageInfoName := images;
                           circleRegionInfo := circles;
                           boxRegionInfo := T';
                           polygonInfo := polygons |} (set_frame Boxes T' sA)),
        T', i, row.
      split.
      { erewrite bind_ok; last first.
        { rewrite for_each_two. erewrite bind_ok; [|apply Hother].
          rewrite Hbox. apply Hs. }
        reflexivity. }
      do 4 (split; [reflexivity|]).
      split; [apply in_app_last|]. by repeat split.
    - (* the box first *)
      destruct (Hsave s0 eq_refl) as (T' & i & row & Hs & Hrow & Hfields & HT').
      set (sB := set_frame Boxes T' s0).
      exists (set_files {| imageInfoName := images;
                           circleRegionInfo := circles;
                           boxRegionInfo := T';
                           polygonInfo := polygons |}
                (set_log (log sB ++ [print_undefined_type ty]) sB)),
        T', i, row.
      split.
      { erewrite bind_ok; last first.
        { rewrite for_each_two. erewrite bind_ok; [|rewrite Hbox; apply Hs].
          apply Hother. }
        reflexivity. }
      do 4 (split; [reflexivity|]).
      split; [apply in_app_last|]. by repeat split. }
  destruct Hfinal as (final & T' & i & row & Htry & Hi & Hc & Hbx & Hp & Hlog
                      & Hfiles & Hrow & Hfields & HT').
  exists final, circles, boxes, polygons.
  unfold handleNewData. rewrite (try_except_ok _ _ _ Htry).
  do 4 (split; [done|]). do 2 (split; [done|]).
  split; [exists i, row; by rewrite Hbx|].
  split; [by rewrite Hbx|]. done.
Qed.

(** ** The stale regions *)











(** ** The identifier generator *)






(** ** The session as a whole *)































Lemma frame_of_set_frame' (t t' : table) (T : DataFrame) (s : DbModule) :
  frame_of t' (set_frame t T s) = if decide (t' = t) then T else frame_of t' s.
Proof. destruct t, t'; reflexivity. Qed.






(** ** The claims on sample data *)




(** C3, on the code.  The stored classes of the image are [A;B] and the
    payload has the classes [B] and [C].  The record of [getImageData] has
    no [class] field, so the update path raises [KeyError] at
    [data['class']] before it computes any class set: no call is made to the
    category handler, the frame is not written and the handler returns
    [False].  With a [class] field in the record the same update makes the
    calls of the class delta: one registration of [C], one removal of [A]. *)
Theorem image_update_registers_nothing :
  getImageData (image_payload ["B"; "C"] []) = Ok record_BC /\
  findInfoInDb stored_images "image-src" (VStr "s") = Ok (Some 0%nat) /\
  loc stored_images 0 "selected-classes" = Ok (VStr "A;B") /\
  saveRegionInDB "image-src" (VStr "s") record_BC 0
    {| database := stored_images; calls := [] |}
  = ({| database := stored_images; calls := [] |}, Raise (KeyError "class")) /\
  handleActiveImageData (image_payload ["B"; "C"] [])
    (set_frame Images stored_images init)
  = (set_log [print_error (KeyError "class")]
       (set_frame Images stored_images init), false) /\
  handleNewData (image_payload ["B"; "C"] [])
    (set_frame Images stored_images init)
  = (set_log [print_error (KeyError "class")]
       (set_frame Images stored_images init), false) /\
  calls (fst (saveRegionInDB "image-src" (VStr "s") record_BC_with_class 0
                {| database := stored_images_with_class; calls := [] |}))
  = [add_image_folder (VStr "C") (VStr "a.png") (VStr "s");
     remove_image_folder (VStr "A") (VStr "a.png")].
Proof. repeat split; vm_compute; reflexivity. Qed.

(** C4, on the code.  Without a [;] in the incoming class string the
    update path builds its sets with [set(string)], the set of the
    characters of the string: the stored class [cat] gives the three
    elements [c], [a], [t], not the one element [cat]; and the stored
    classes [A;B] are not split when the incoming string has no [;]. *)
Theorem category_sets_of_characters :
  regions_view boxes_cat = [(VNum 1, VStr "s", VStr "cat")] /\
  findInfoInDb boxes_cat "region-id" (VNum 1) = Ok (Some 0%nat) /\
  category_sets boxes_cat 0 (box_record_of (VNum 1) "dog")
  = Ok ([VStr "c"; VStr "a"; VStr "t"], [VStr "d"; VStr "o"; VStr "g"]) /\
  category_sets stored_images_with_class 0
    [("class", VList [VStr ""]); ("selected-classes", VList [VStr "C"])]
  = Ok ([VStr "A"; VStr ";"; VStr "B"], [VStr "C"]) /\
  category_sets stored_images_with_class 0
    [("class", VList [VStr ""]); ("selected-classes", VList [VStr "B;C"])]
  = Ok ([VStr "A"; VStr "B"], [VStr "B"; VStr "C"]).
Proof. repeat split; vm_compute; reflexivity. Qed.

(** C6, on the code.  Two calls of [handleNewData] with the same payload on
    a new instance: both return [True]; after the first the images frame has
    one row, after the second it has two, and so has the images file.  The
    insert path stores the fields of the image record as one-element lists,
    which the lookup by [image-src] never equals. *)
Theorem handleNewData_twice_appends_image_row :
  snd (handleNewData (image_payload ["cat"] []) init) = true /\
  snd (handleNewData (image_payload ["cat"] [])
         (fst (handleNewData (image_payload ["cat"] []) init))) = true /\
  series (imagesInfo (fst (handleNewData (image_payload ["cat"] []) init)))
    "image-src" = Ok [VList [VStr "s"]] /\
  findInfoInDb
    (imagesInfo (fst (handleNewData (image_payload ["cat"] []) init)))
    "image-src" (VStr "s") = Ok None /\
  series (imagesInfo
            (fst (handleNewData (image_payload ["cat"] [])
                    (fst (handleNewData (image_payload ["cat"] []) init)))))
    "image-src" = Ok [VList [VStr "s"]; VList [VStr "s"]] /\
  series (imageInfoName (files
            (fst (handleNewData (image_payload ["cat"] [])
                    (fst (handleNewData (image_payload ["cat"] []) init))))))
    "image-src" = Ok [VList [VStr "s"]; VList [VStr "s"]].
Proof. repeat split; vm_compute; reflexivity. Qed.




(** C7, an instance: an ellipse and a box on a new instance. *)
Lemma handleNewData_drops_unknown_type_witness :
  exists self',
    handleNewData
      (image_payload ["B"; "C"]
         [ellipse_region (VStr "e1") "cat"; box_region (VStr "b1") "cat"])
      init = (self', true) /\
    In (print_undefined_type (VStr "ellipse")) (log self') /\
    imageCircleRegions self' = imageCircleRegions init /\
    imagePolygonRegions self' = imagePolygonRegions init /\
    exists i row,
      rows (imageBoxRegions self') !! i = Some row /\
      row !! "region-id" = Some (VStr "b1").
Proof.
  destruct (handleNewData_drops_unknown_type
              (payload_fields "a.png" "s" ["B"; "C"]
                 [ellipse_region (VStr "e1") "cat";
                  box_region (VStr "b1") "cat"])
              (ellipse_fields (VStr "e1") "cat")
              (box_fields (VStr "b1") "cat")
              record_BC (box_record_of (VStr "b1") "cat")
              [ellipse_region (VStr "e1") "cat"; box_region (VStr "b1") "cat"]
              (VStr "s") (VStr "ellipse") [] init)
    as (self' & c & b & p & H1 & H2 & _ & H4 & H5 & H6 & (i & row & H7 & H8)
        & _ & _ & H10 & _).
  - vm_compute. reflexivity.
  - reflexivity.
  - reflexivity.
  - by left.
  - repeat split; try reflexivity; eexists; try split; reflexivity.
  - unfold valid_box. eexists _, _, _, _, _, _, _, _.
    repeat split; reflexivity.
  - vm_compute. reflexivity.
  - vm_compute. reflexivity.
  - repeat split; try reflexivity. intros r Hr. destruct Hr.
  - exists self'. split; [exact H1|]. split; [exact H10|].
    split; [rewrite H5; vm_compute in H2; by inversion H2|].
    split; [rewrite H6; vm_compute in H4; by inversion H4|].
    exists i, row. split; [exact H7|]. by apply H8.
Defined.

(** C8, an instance: the second region of the session raises; the frames
    in memory keep the image and the first region, the files keep nothing. *)
Lemma handleNewData_failure_writes_nothing_witness :
  snd (handleNewData_try payload_half init) = Raise (KeyError "coords") /\
  (snd (handleNewData payload_half init) = false /\
   files (fst (handleNewData payload_half init)) = files init) /\
  regions_view (imageBoxRegions (fst (handleNewData payload_half init)))
  = [(VNum 1, VStr "s", VStr "cat")] /\
  rows (boxRegionInfo (files (fst (handleNewData payload_half init)))) = [].
Proof.
  split; [vm_compute; reflexivity|]. split.
  - apply (handleNewData_failure_writes_nothing payload_half init
             (fst (handleNewData_try payload_half init)) (KeyError "coords")).
    vm_compute. reflexivity.
  - split; vm_compute; reflexivity.
Defined.

